(** * ReAgentLightningModule: the generator step protocol and the stopping epoch

    A shallow embedding of [reagent/training/reagent_lightning_module.py].

    The Python object graph is written out as records: the module ([self]),
    the trainer it points to, and a trace of the calls that leave the module
    (reporter flushes, the global step of [SummaryWriterContext], log lines).
    Every method is a computation in a small state-and-exception monad: it
    takes the world, and gives back either a value or a raised exception,
    together with the world as the method left it.  A raised exception keeps
    the writes made before it, as in Python. *)

From Stdlib Require Import ZArith List String Bool Lia.
Import ListNotations.
Local Open Scope Z_scope.
Local Set Warnings "-register-all".

(** ** Exceptions and outcomes *)

Inductive exn : Type :=
| StopIteration
| RuntimeError (msg : string)
| NotImplementedError
| UnboundLocalError (name : string)
| TypeError
| ValueError
| IndexError
| AttributeError
| UserError (tag : nat).

Inductive outcome (A : Type) : Type :=
| Return (a : A)
| Raise (e : exn).
Arguments Return {A} a.
Arguments Raise {A} e.

Definition is_StopIteration (e : exn) : bool :=
  match e with StopIteration => true | _ => false end.

(** ** 32-bit tensors

    [torch.tensor([-1]).int()] is a one-dimensional [int32] tensor; its
    arithmetic is two's complement on 32 bits. *)

Definition int32_min : Z := - 2 ^ 31.
Definition int32_max : Z := 2 ^ 31 - 1.

Definition in_int32 (z : Z) : Prop := int32_min <= z <= int32_max.

Definition wrap_int32 (z : Z) : Z := (z + 2 ^ 31) mod 2 ^ 32 - 2 ^ 31.

(** A Python int handed to a tensor operation is first unpacked into a C
    [long long]: it has to fit 64 bits. *)
Definition int64_min : Z := - 2 ^ 63.
Definition int64_max : Z := 2 ^ 63 - 1.

Definition in_int64 (z : Z) : Prop := int64_min <= z <= int64_max.

Definition fits_int64 (z : Z) : bool := (int64_min <=? z) && (z <=? int64_max).

(** [t += n] on an [int32] tensor with a Python int [n]: a scalar that does
    not fit 64 bits raises before anything is written; otherwise the sum is
    taken elementwise, in place, wrapping on 32 bits. *)
Definition tensor_iadd (t : list Z) (n : Z) : outcome (list Z) :=
  if fits_int64 n then Return (map (fun x => wrap_int32 (x + n)) t)
  else Raise (RuntimeError "Overflow when unpacking long").

(** [t[0] = b] on a one-dimensional tensor: [IndexError] when it is empty. *)
Definition tensor_setitem0 {A : Type} (t : list A) (b : A) : outcome (list A) :=
  match t with
  | [] => Raise IndexError
  | _ :: rest => Return (b :: rest)
  end.

(** [t.item()]: only a tensor of exactly one element converts to a scalar. *)
Definition tensor_item {A : Type} (t : list A) : outcome A :=
  match t with
  | [x] => Return x
  | _ => Raise ValueError
  end.

(** ** Objects of the host framework *)

(** A TensorBoard [SummaryWriter], known by its handle. *)
Definition SummaryWriter : Type := nat.

(** A [pl] logger object.  [addr] is the identity of the Python object, the
    thing [is] compares. *)
Inductive pl_logger : Type :=
| TensorBoardLogger (addr : nat) (experiment : SummaryWriter)
| LoggerCollection (addr : nat) (_logger_iterable : list pl_logger)
| OtherLogger (addr : nat).

Definition logger_addr (l : pl_logger) : nat :=
  match l with
  | TensorBoardLogger a _ => a
  | LoggerCollection a _ => a
  | OtherLogger a => a
  end.

(** [a is b] on values that are a logger or [None]. *)
Definition py_is (a b : option pl_logger) : bool :=
  match a, b with
  | None, None => true
  | Some x, Some y => Nat.eqb (logger_addr x) (logger_addr y)
  | _, _ => false
  end.

(** A reporter: one of the [DummyExperiment] objects that the module creates
    ([serial] counts them, so two of them are the same object exactly when
    their serials agree), or an object of the caller. *)
Inductive Reporter : Type :=
| DummyExperiment (serial : nat)
| UserReporter (id : nat).

(** What leaves the module: calls on objects it does not own. *)
Inductive event : Type :=
| Flush (r : Reporter) (epoch : Z)
| IncreaseGlobalStep
| LogInfo (msg : string).

Record Trainer : Type := mkTrainer { should_stop : bool }.

(** What a method hands back when it is not a yielded step result. *)
Inductive pyval : Type :=
| PyNone
| PySelf
| PyTrainResult.

Record StoppingEpochCallback : Type := mkCallback { num_epochs : Z }.

Section Lightning.

(** The batches the host feeds, and the values a training step yields. *)
Variable Batch : Type.
Variable StepResult : Type.

(** ** Generators

    A generator object runs the body of a generator function up to its next
    [yield].  [gen_code i] is what the body does when it is resumed for the
    [i]-th time (counting from 0): yield a value, return, or raise.  Once the
    body has returned or raised the generator is finished, and every later
    [next] raises [StopIteration]. *)

Inductive gen_event : Type :=
| Yield (v : StepResult)
| GenReturn
| GenRaise (e : exn).

Record generator : Type := mkGenerator {
  gen_code : nat -> gen_event;
  gen_pos : nat;
  gen_finished : bool
}.

Definition new_generator (code : nat -> gen_event) : generator :=
  mkGenerator code 0 false.

Definition next (g : generator) : outcome StepResult * generator :=
  if gen_finished g then (Raise StopIteration, g)
  else
    match gen_code g (gen_pos g) with
    | Yield v => (Return v, mkGenerator (gen_code g) (S (gen_pos g)) false)
    | GenReturn => (Raise StopIteration, mkGenerator (gen_code g) (gen_pos g) true)
    | GenRaise e =>
        (* an escaping StopIteration is turned into RuntimeError (PEP 479) *)
        (Raise (if is_StopIteration e
                then RuntimeError "generator raised StopIteration" else e),
         mkGenerator (gen_code g) (gen_pos g) true)
    end.

(** ** The module *)

Record ReAgentLightningModule : Type := mkModule {
  _training_step_generator : option generator;
  _reporter : option Reporter;
  _verified_steps : bool;
  _summary_writer_logger : option pl_logger;
  _summary_writer : option SummaryWriter;
  (* names passed to register_buffer, in registration order *)
  _buffers : list string;
  _next_stopping_epoch : list Z;
  _cleanly_stopped : list bool;
  (* attributes of pl.LightningModule that the host writes *)
  logger : option pl_logger;
  current_epoch : Z
}.

Record World : Type := mkWorld {
  self : ReAgentLightningModule;
  trainer : Trainer;
  trace : list event;
  (* how many DummyExperiment objects exist *)
  dummies : nat
}.

(** ** The monad of methods *)

Definition M (A : Type) : Type := World -> outcome A * World.

Definition ret {A : Type} (a : A) : M A := fun w => (Return a, w).

Definition raise {A : Type} (e : exn) : M A := fun w => (Raise e, w).

Definition bind {A B : Type} (c : M A) (k : A -> M B) : M B :=
  fun w =>
    match c w with
    | (Return a, w') => k a w'
    | (Raise e, w') => (Raise e, w')
    end.

(** [try: c except <handles>: h]; other exceptions pass through. *)
Definition try_except {A : Type} (c : M A) (handles : exn -> bool) (h : M A) : M A :=
  fun w =>
    match c w with
    | (Return a, w') => (Return a, w')
    | (Raise e, w') => if handles e then h w' else (Raise e, w')
    end.

Definition lift {A : Type} (o : outcome A) : M A := fun w => (o, w).

Definition getattr {A : Type} (f : ReAgentLightningModule -> A) : M A :=
  fun w => (Return (f (self w)), w).

Definition modify (f : ReAgentLightningModule -> ReAgentLightningModule) : M unit :=
  fun w => (Return tt, mkWorld (f (self w)) (trainer w) (trace w) (dummies w)).

Definition emit (e : event) : M unit :=
  fun w => (Return tt, mkWorld (self w) (trainer w) (trace w ++ [e]) (dummies w)).

Definition pass : M unit := ret tt.

Notation "x <- c ;; k" := (bind c (fun x => k))
  (at level 61, c at next level, right associativity).
Notation "c ;;; k" := (bind c (fun _ => k))
  (at level 61, right associativity).

(** Field writes, [self.f = v]. *)

Definition with_training_step_generator (v : option generator)
    (m : ReAgentLightningModule) : ReAgentLightningModule :=
  mkModule v (_reporter m) (_verified_steps m) (_summary_writer_logger m)
    (_summary_writer m) (_buffers m) (_next_stopping_epoch m)
    (_cleanly_stopped m) (logger m) (current_epoch m).

Definition with_reporter (v : option Reporter)
    (m : ReAgentLightningModule) : ReAgentLightningModule :=
  mkModule (_training_step_generator m) v (_verified_steps m)
    (_summary_writer_logger m) (_summary_writer m) (_buffers m)
    (_next_stopping_epoch m) (_cleanly_stopped m) (logger m) (current_epoch m).

Definition with_verified_steps (v : bool)
    (m : ReAgentLightningModule) : ReAgentLightningModule :=
  mkModule (_training_step_generator m) (_reporter m) v
    (_summary_writer_logger m) (_summary_writer m) (_buffers m)
    (_next_stopping_epoch m) (_cleanly_stopped m) (logger m) (current_epoch m).

Definition with_summary_writer_logger (v : option pl_logger)
    (m : ReAgentLightningModule) : ReAgentLightningModule :=
  mkModule (_training_step_generator m) (_reporter m) (_verified_steps m) v
    (_summary_writer m) (_buffers m) (_next_stopping_epoch m)
    (_cleanly_stopped m) (logger m) (current_epoch m).

Definition with_summary_writer (v : option SummaryWriter)
    (m : ReAgentLightningModule) : ReAgentLightningModule :=
  mkModule (_training_step_generator m) (_reporter m) (_verified_steps m)
    (_summary_writer_logger m) v (_buffers m) (_next_stopping_epoch m)
    (_cleanly_stopped m) (logger m) (current_epoch m).

Definition with_next_stopping_epoch (v : list Z)
    (m : ReAgentLightningModule) : ReAgentLightningModule :=
  mkModule (_training_step_generator m) (_reporter m) (_verified_steps m)
    (_summary_writer_logger m) (_summary_writer m) (_buffers m) v
    (_cleanly_stopped m) (logger m) (current_epoch m).

Definition with_cleanly_stopped (v : list bool)
    (m : ReAgentLightningModule) : ReAgentLightningModule :=
  mkModule (_training_step_generator m) (_reporter m) (_verified_steps m)
    (_summary_writer_logger m) (_summary_writer m) (_buffers m)
    (_next_stopping_epoch m) v (logger m) (current_epoch m).

(** [self.trainer.should_stop = b] *)
Definition set_should_stop (b : bool) : M unit :=
  fun w => (Return tt, mkWorld (self w) (mkTrainer b) (trace w) (dummies w)).

(** [pl.loggers.base.DummyExperiment()]: a new object each time. *)
Definition new_DummyExperiment : M Reporter :=
  fun w =>
    (Return (DummyExperiment (dummies w)),
     mkWorld (self w) (trainer w) (trace w) (S (dummies w))).

(** ** What a subclass provides

    [train_step_gen] is the generator function of the subclass: calling it runs
    none of its body and hands back the code of a new generator.  The method of
    the base class is not a generator function; it raises at the call.
    [_num_optimizing_steps] is [len(self.configure_optimizers())], computed once
    by [lazy_property] of [reagent.core.utils]; a length, so a natural number. *)

Variable train_step_gen : Batch -> Z -> outcome (nat -> gen_event).
Variable _num_optimizing_steps : nat.

(** ** Methods of [ReAgentLightningModule] *)

Definition register_buffer (name : string) (registry : list string) : list string :=
  registry ++ [name].

(** [ReAgentLightningModule()] when [d] dummy experiments already exist;
    [super().__init__()] leaves [logger] at [None] and [current_epoch] at 0. *)
Definition __init__ (tr : Trainer) (d : nat) : World :=
  mkWorld
    (mkModule None (Some (DummyExperiment d)) false None None
       (register_buffer "_cleanly_stopped"
          (register_buffer "_next_stopping_epoch" []))
       [wrap_int32 (-1)] (repeat true 1) None 0)
    tr [] (S d).

Definition set_reporter (reporter : option Reporter) : M pyval :=
  r <- match reporter with
       | None => new_DummyExperiment
       | Some r => ret r
       end ;;
  modify (with_reporter (Some r)) ;;;
  ret PySelf.

Definition reporter : M (option Reporter) := getattr _reporter.

Definition increase_next_stopping_epochs (n : Z) : M pyval :=
  counter <- getattr _next_stopping_epoch ;;
  counter' <- lift (tensor_iadd counter n) ;;
  modify (with_next_stopping_epoch counter') ;;;
  t <- getattr _cleanly_stopped ;;
  t' <- lift (tensor_setitem0 t false) ;;
  modify (with_cleanly_stopped t') ;;;
  ret PySelf.

(** First [TensorBoardLogger] among the loggers of a collection: the [for]
    loop with its [break]. *)
Fixpoint first_tensorboard (ls : list pl_logger) : option SummaryWriter :=
  match ls with
  | [] => None
  | TensorBoardLogger _ ex :: _ => Some ex
  | _ :: rest => first_tensorboard rest
  end.

(** Reading a local name of a function: a name the function binds somewhere
    (here [logger], the target of the [for] loop) is local in the whole body,
    and reading it before it is bound raises [UnboundLocalError]. *)
Definition load_local {A : Type} (name : string) (binding : option A) : M A :=
  match binding with
  | Some v => ret v
  | None => raise (UnboundLocalError name)
  end.

Definition summary_writer : M (option SummaryWriter) :=
  cached <- getattr _summary_writer_logger ;;
  lg <- getattr logger ;;
  if py_is cached lg then getattr _summary_writer
  else
    modify (with_summary_writer None) ;;;
    modify (with_summary_writer_logger lg) ;;;
    match lg with
    | Some (LoggerCollection _ iterable) =>
        match first_tensorboard iterable with
        | Some ex => modify (with_summary_writer (Some ex))
        | None => pass
        end ;;;
        getattr _summary_writer
    | _ =>
        (* elif isinstance(logger, ...): the loop has not run, so the local
           name [logger] has no binding *)
        l <- load_local "logger" (@None pl_logger) ;;
        match l with
        | TensorBoardLogger _ ex => modify (with_summary_writer (Some ex))
        | _ => pass
        end ;;;
        getattr _summary_writer
    end.

(** [next(self._training_step_generator)]: the generator object the field
    points to is advanced in place. *)
Definition next_training_step_generator : M StepResult :=
  fun w =>
    match _training_step_generator (self w) with
    | None => (Raise TypeError, w)
    | Some g =>
        let (r, g') := next g in
        (r, mkWorld (with_training_step_generator (Some g') (self w))
              (trainer w) (trace w) (dummies w))
    end.

Definition training_step (batch : Batch) (batch_idx : Z) (optimizer_idx : Z)
    : M StepResult :=
  g <- getattr _training_step_generator ;;
  match g with
  | None =>
      code <- lift (train_step_gen batch batch_idx) ;;
      modify (with_training_step_generator (Some (new_generator code)))
  | Some _ => pass
  end ;;;
  r <- next_training_step_generator ;;
  (if optimizer_idx =? Z.of_nat _num_optimizing_steps - 1 then
     verified <- getattr _verified_steps ;;
     (if negb verified then
        try_except (next_training_step_generator ;;; pass)
          is_StopIteration
          (modify (with_verified_steps true)) ;;;
        verified' <- getattr _verified_steps ;;
        if negb verified'
        then raise (RuntimeError "training_step_gen() yields too many times")
        else pass
      else pass) ;;;
     modify (with_training_step_generator None) ;;;
     emit IncreaseGlobalStep
   else pass) ;;;
  ret r.

Definition training_epoch_end : M pyval :=
  rep <- reporter ;;
  epoch <- getattr current_epoch ;;
  match rep with
  | None => raise AttributeError
  | Some r => emit (Flush r epoch)
  end ;;;
  epoch' <- getattr current_epoch ;;
  t <- getattr _next_stopping_epoch ;;
  stop_at <- lift (tensor_item t) ;;
  (if epoch' =? stop_at then set_should_stop true else pass) ;;;
  ret PyTrainResult.

(** ** [StoppingEpochCallback] *)

Definition cleanly_stopped_message (b : bool) : string :=
  String.append "cleanly stopped: " (if b then "True" else "False").

Definition on_pretrain_routine_end (cb : StoppingEpochCallback) : M pyval :=
  t <- getattr _cleanly_stopped ;;
  cleanly_stopped <- lift (tensor_item t) ;;
  emit (LogInfo (cleanly_stopped_message cleanly_stopped)) ;;;
  (if (cleanly_stopped : bool)
   then increase_next_stopping_epochs (num_epochs cb) ;;; pass
   else pass) ;;;
  ret PyNone.

(** The host's loop over the optimizers of one batch: [n] calls of
    [training_step] with optimizer indices [from], [from + 1], ..., stopping at
    the first exception. *)
Fixpoint optimizer_loop (batch : Batch) (batch_idx : Z) (n : nat) (from : nat)
    : M (list StepResult) :=
  match n with
  | O => ret []
  | S n' =>
      r <- training_step batch batch_idx (Z.of_nat from) ;;
      rs <- optimizer_loop batch batch_idx n' (S from) ;;
      ret (r :: rs)
  end.

(** ** Calls the host can make on a module *)

Inductive call : Type :=
| Call_set_reporter (r : option Reporter)
| Call_reporter
| Call_increase_next_stopping_epochs (n : Z)
| Call_summary_writer
| Call_training_step (batch : Batch) (batch_idx optimizer_idx : Z)
| Call_training_epoch_end
| Call_on_pretrain_routine_end (cb : StoppingEpochCallback).

(** The world a call leaves, whether it returned or raised. *)
Definition run (c : call) (w : World) : World :=
  match c with
  | Call_set_reporter r => snd (set_reporter r w)
  | Call_reporter => snd (reporter w)
  | Call_increase_next_stopping_epochs n => snd (increase_next_stopping_epochs n w)
  | Call_summary_writer => snd (summary_writer w)
  | Call_training_step b bi k => snd (training_step b bi k w)
  | Call_training_epoch_end => snd (training_epoch_end w)
  | Call_on_pretrain_routine_end cb => snd (on_pretrain_routine_end cb w)
  end.

(** Worlds reached from a new module by calls of its methods and by the
    host's writes to the attributes it owns. *)
Inductive reachable : World -> Prop :=
| reach_init (tr : Trainer) (d : nat) : reachable (__init__ tr d)
| reach_call (c : call) (w : World) : reachable w -> reachable (run c w)
| reach_host (w : World) (lg : option pl_logger) (epoch : Z) (tr : Trainer) :
    reachable w ->
    reachable
      (mkWorld
         (mkModule (_training_step_generator (self w)) (_reporter (self w))
            (_verified_steps (self w)) (_summary_writer_logger (self w))
            (_summary_writer (self w)) (_buffers (self w))
            (_next_stopping_epoch (self w)) (_cleanly_stopped (self w))
            lg epoch)
         tr (trace w) (dummies w)).

(** Both buffers hold exactly one element. *)
Definition single_element (w : World) : Prop :=
  List.length (_next_stopping_epoch (self w)) = 1%nat /\
  List.length (_cleanly_stopped (self w)) = 1%nat.

Definition is_LoggerCollection (l : option pl_logger) : bool :=
  match l with
  | Some (LoggerCollection _ _) => true
  | _ => false
  end.

Definition is_TensorBoardLogger (l : pl_logger) : bool :=
  match l with
  | TensorBoardLogger _ _ => true
  | _ => false
  end.

(** The host moves the module to an epoch ([self.current_epoch]). *)
Definition at_epoch (epoch : Z) (w : World) : World :=
  mkWorld
    (mkModule (_training_step_generator (self w)) (_reporter (self w))
       (_verified_steps (self w)) (_summary_writer_logger (self w))
       (_summary_writer (self w)) (_buffers (self w))
       (_next_stopping_epoch (self w)) (_cleanly_stopped (self w))
       (logger (self w)) epoch)
    (trainer w) (trace w) (dummies w).

(** World updates used to state what a call leaves behind. *)

Definition set_gen (g : option generator) (w : World) : World :=
  mkWorld (with_training_step_generator g (self w)) (trainer w) (trace w) (dummies w).

Definition set_verified (b : bool) (w : World) : World :=
  mkWorld (with_verified_steps b (self w)) (trainer w) (trace w) (dummies w).

Definition add_event (e : event) (w : World) : World :=
  mkWorld (self w) (trainer w) (trace w ++ [e]) (dummies w).

(** The generator a call of [training_step batch batch_idx _] advances: the one
    the field holds, or else the one it makes from [train_step_gen]. *)
Definition uses_generator (batch : Batch) (batch_idx : Z) (w : World)
    (g : generator) : Prop :=
  _training_step_generator (self w) = Some g \/
  (_training_step_generator (self w) = None /\
   exists code, train_step_gen batch batch_idx = Return code /\
                g = new_generator code).

(** ** Single calls of [training_step] *)

Ltac run_method :=
  unfold training_step, next_training_step_generator, try_except, bind, getattr,
    modify, emit, pass, lift, ret, raise, next, new_generator,
    set_gen, set_verified, add_event; simpl.

Lemma set_gen_same (g : option generator) (w : World) :
  _training_step_generator (self w) = g -> set_gen g w = w.
Proof.
  destruct w as [m tr tc d]; destruct m; simpl; intros ->; reflexivity.
Qed.

Lemma training_step_first (b : Batch) (bi k : Z) (w : World) code :
  _training_step_generator (self w) = None ->
  train_step_gen b bi = Return code ->
  training_step b bi k w = training_step b bi k (set_gen (Some (new_generator code)) w).
Proof.
  intros Hg Hc. unfold training_step at 1. unfold bind at 1, getattr at 1.
  rewrite Hg. unfold bind at 1. unfold bind at 1. unfold lift. rewrite Hc.
  reflexivity.
Qed.

Lemma training_step_inner (b : Batch) (bi k : Z) (w : World) code j v :
  _training_step_generator (self w) = Some (mkGenerator code j false) ->
  code j = Yield v ->
  k <> Z.of_nat _num_optimizing_steps - 1 ->
  training_step b bi k w =
  (Return v, set_gen (Some (mkGenerator code (S j) false)) w).
Proof.
  intros Hg Hy Hk. apply Z.eqb_neq in Hk.
  run_method. rewrite Hg; simpl. rewrite Hg; simpl. rewrite Hy, Hk. reflexivity.
Qed.

Lemma training_step_last_verified (b : Batch) (bi : Z) (w : World) code j v :
  _training_step_generator (self w) = Some (mkGenerator code j false) ->
  code j = Yield v ->
  _verified_steps (self w) = true ->
  training_step b bi (Z.of_nat _num_optimizing_steps - 1) w =
  (Return v, add_event IncreaseGlobalStep (set_gen None w)).
Proof.
  intros Hg Hy Hv.
  run_method. rewrite Hg; simpl. rewrite Hg; simpl. rewrite Hy, Z.eqb_refl; simpl.
  rewrite Hv; simpl. reflexivity.
Qed.

Lemma training_step_last_checked (b : Batch) (bi : Z) (w : World) code j v :
  _training_step_generator (self w) = Some (mkGenerator code j false) ->
  code j = Yield v ->
  code (S j) = GenReturn ->
  _verified_steps (self w) = false ->
  training_step b bi (Z.of_nat _num_optimizing_steps - 1) w =
  (Return v, add_event IncreaseGlobalStep (set_gen None (set_verified true w))).
Proof.
  intros Hg Hy Hs Hv.
  run_method. rewrite Hg; simpl. rewrite Hg; simpl. rewrite Hy, Z.eqb_refl; simpl.
  rewrite Hv; simpl. rewrite Hs; simpl. reflexivity.
Qed.

Lemma training_step_too_many (b : Batch) (bi : Z) (w : World) code j v v' :
  _training_step_generator (self w) = Some (mkGenerator code j false) ->
  code j = Yield v ->
  code (S j) = Yield v' ->
  _verified_steps (self w) = false ->
  training_step b bi (Z.of_nat _num_optimizing_steps - 1) w =
  (Raise (RuntimeError "training_step_gen() yields too many times"),
   set_gen (Some (mkGenerator code (S (S j)) false)) w).
Proof.
  intros Hg Hy Hs Hv.
  run_method. rewrite Hg; simpl. rewrite Hg; simpl. rewrite Hy, Z.eqb_refl; simpl.
  rewrite Hv; simpl. rewrite Hs; simpl. rewrite Hv; simpl. reflexivity.
Qed.

Lemma training_step_uses (b : Batch) (bi k : Z) (w : World) g :
  uses_generator b bi w g ->
  training_step b bi k w = training_step b bi k (set_gen (Some g) w).
Proof.
  intros [Hg | [Hg [code [Hc ->]]]].
  - rewrite (set_gen_same _ _ Hg). reflexivity.
  - apply training_step_first; assumption.
Qed.

(** ** The optimizer loop of one batch *)

Lemma optimizer_loop_S (b : Batch) (bi : Z) (n j : nat) (w : World) :
  optimizer_loop b bi (S n) j w =
  match training_step b bi (Z.of_nat j) w with
  | (Return r, w') =>
      match optimizer_loop b bi n (S j) w' with
      | (Return rs, w'') => (Return (r :: rs), w'')
      | (Raise e, w'') => (Raise e, w'')
      end
  | (Raise e, w') => (Raise e, w')
  end.
Proof. reflexivity. Qed.

Lemma optimizer_loop_inner (b : Batch) (bi : Z) code (vs : nat -> StepResult) :
  forall (n j : nat) (w : World),
    _training_step_generator (self w) = Some (mkGenerator code j false) ->
    (j + n < _num_optimizing_steps)%nat ->
    (forall i, (j <= i < j + n)%nat -> code i = Yield (vs i)) ->
    optimizer_loop b bi n j w =
    (Return (map vs (seq j n)), set_gen (Some (mkGenerator code (j + n) false)) w).
Proof.
  induction n as [| n IH]; intros j w Hg Hn Hy.
  - simpl. rewrite Nat.add_0_r, (set_gen_same _ _ Hg). reflexivity.
  - rewrite optimizer_loop_S.
    rewrite (training_step_inner b bi _ w code j (vs j)); try assumption.
    + rewrite (IH (S j) (set_gen (Some (mkGenerator code (S j) false)) w)).
      * simpl. rewrite <- plus_n_Sm. reflexivity.
      * reflexivity.
      * lia.
      * intros i Hi. apply Hy. lia.
    + apply Hy. lia.
    + lia.
Qed.

Lemma optimizer_loop_to_last (b : Batch) (bi : Z) code (vs : nat -> StepResult) :
  forall (n j : nat) (w : World),
    _training_step_generator (self w) = Some (mkGenerator code j false) ->
    (j + S n = _num_optimizing_steps)%nat ->
    (forall i, (j <= i <= j + n)%nat -> code i = Yield (vs i)) ->
    _verified_steps (self w) = true \/ code _num_optimizing_steps = GenReturn ->
    optimizer_loop b bi (S n) j w =
    (Return (map vs (seq j (S n))),
     add_event IncreaseGlobalStep (set_gen None (set_verified true w))).
Proof.
  induction n as [| n IH]; intros j w Hg Hn Hy Hend.
  - rewrite optimizer_loop_S.
    replace (Z.of_nat j) with (Z.of_nat _num_optimizing_steps - 1) by lia.
    destruct (_verified_steps (self w)) eqn:Hv.
    + rewrite (training_step_last_verified b bi w code j (vs j)); try assumption.
      * simpl.
        destruct w as [m tr tc d]; destruct m; simpl in *; subst; reflexivity.
      * apply Hy. lia.
    + destruct Hend as [Hend | Hend]; [discriminate |].
      rewrite (training_step_last_checked b bi w code j (vs j)); try assumption.
      * reflexivity.
      * apply Hy. lia.
      * replace (S j) with _num_optimizing_steps by lia. assumption.
  - rewrite optimizer_loop_S.
    rewrite (training_step_inner b bi _ w code j (vs j)); try assumption.
    + rewrite (IH (S j) (set_gen (Some (mkGenerator code (S j) false)) w)).
      * reflexivity.
      * reflexivity.
      * lia.
      * intros i Hi. apply Hy. lia.
      * exact Hend.
    + apply Hy. lia.
    + lia.
Qed.

Lemma optimizer_loop_first (b : Batch) (bi : Z) (n j : nat) (w : World) code :
  _training_step_generator (self w) = None ->
  train_step_gen b bi = Return code ->
  optimizer_loop b bi (S n) j w =
  optimizer_loop b bi (S n) j (set_gen (Some (new_generator code)) w).
Proof.
  intros Hg Hc. rewrite !optimizer_loop_S.
  rewrite (training_step_first b bi _ w code Hg Hc). reflexivity.
Qed.

(** Case analysis on the innermost scrutinee of the goal, repeatedly. *)
Ltac split_matches :=
  repeat match goal with
         | |- context [match ?x with _ => _ end] =>
             lazymatch x with
             | context [match _ with _ => _ end] => fail
             | _ => destruct x eqn:?; simpl in *
             end
         end.

Lemma verified_steps_persist (b : Batch) (bi k : Z) (w : World) :
  _verified_steps (self w) = true ->
  _verified_steps (self (snd (training_step b bi k w))) = true.
Proof.
  intros Hv. run_method. split_matches; simpl; try assumption; try reflexivity;
    congruence.
Qed.

Lemma training_step_reset_on_return (b : Batch) (bi : Z) (w : World) v :
  fst (training_step b bi (Z.of_nat _num_optimizing_steps - 1) w) = Return v ->
  _training_step_generator
    (self (snd (training_step b bi (Z.of_nat _num_optimizing_steps - 1) w))) = None.
Proof.
  run_method. rewrite Z.eqb_refl.
  split_matches; simpl; intros; try reflexivity; try discriminate.
Qed.

Lemma training_step_keeps_generator (b : Batch) (bi k : Z) (w : World) g :
  _training_step_generator (self w) = Some g ->
  k <> Z.of_nat _num_optimizing_steps - 1 ->
  _training_step_generator (self (snd (training_step b bi k w))) =
  Some (snd (next g)).
Proof.
  intros Hg Hk. apply Z.eqb_neq in Hk.
  unfold training_step, next_training_step_generator, bind, getattr, modify,
    emit, lift, ret, raise, pass; simpl.
  rewrite Hg; simpl. rewrite Hg; simpl.
  destruct (next g) as [[r | e] g']; simpl.
  - rewrite Hk. reflexivity.
  - reflexivity.
Qed.

(** ** The step protocol *)

(** C1 (as amended): on a batch whose generator is still to be made, the first
    call makes it from [train_step_gen batch batch_idx]; the calls with
    optimizer indices 0, ..., k (k below the number of optimizers) return the
    first k + 1 values the generator yields, in order, provided the generator
    yields that many and, for the call with the last index, the step count is
    already verified or the generator ends after its N-th value.  Between the
    calls the field holds that generator, advanced once per call. *)
Theorem training_step_returns_successive_yields
    (batch : Batch) (batch_idx : Z) (w : World) code (vs : nat -> StepResult)
    (k : nat) :
  _training_step_generator (self w) = None ->
  train_step_gen batch batch_idx = Return code ->
  (k < _num_optimizing_steps)%nat ->
  (forall i, (i <= k)%nat -> code i = Yield (vs i)) ->
  (S k = _num_optimizing_steps ->
   _verified_steps (self w) = true \/ code _num_optimizing_steps = GenReturn) ->
  fst (optimizer_loop batch batch_idx (S k) 0 w) = Return (map vs (seq 0 (S k))) /\
  _training_step_generator (self (snd (optimizer_loop batch batch_idx (S k) 0 w))) =
  if (S k =? _num_optimizing_steps)%nat then None
  else Some (mkGenerator code (S k) false).
Proof.
  intros Hg Hc Hk Hy Hend.
  rewrite (optimizer_loop_first batch batch_idx k 0 w code Hg Hc).
  set (w1 := set_gen (Some (new_generator code)) w).
  assert (Hg1 : _training_step_generator (self w1) = Some (mkGenerator code 0 false))
    by reflexivity.
  destruct (Nat.eqb_spec (S k) _num_optimizing_steps) as [Heq | Hne].
  - rewrite (optimizer_loop_to_last batch batch_idx code vs k 0 w1 Hg1).
    + split; reflexivity.
    + exact Heq.
    + intros i Hi. apply Hy. lia.
    + exact (Hend Heq).
  - rewrite (optimizer_loop_inner batch batch_idx code vs (S k) 0 w1 Hg1).
    + split; reflexivity.
    + lia.
    + intros i Hi. apply Hy. lia.
Qed.

(** C2: on the call with the last optimizer index, with the generator of the
    call about to yield [v]: when the steps are not verified and the generator
    yields once more, the call raises
    [RuntimeError("training_step_gen() yields too many times")]; when instead
    the generator ends there, the call returns [v] and [_verified_steps]
    becomes [True]; once [_verified_steps] is [True] the call returns [v]
    whatever the generator would do next, and no call of [training_step] ever
    clears [_verified_steps]. *)
Theorem training_step_verifies_yield_count
    (b : Batch) (bi : Z) (w : World) code (j : nat) (v : StepResult) :
  uses_generator b bi w (mkGenerator code j false) ->
  code j = Yield v ->
  (_verified_steps (self w) = false ->
   (exists v', code (S j) = Yield v') ->
   fst (training_step b bi (Z.of_nat _num_optimizing_steps - 1) w) =
   Raise (RuntimeError "training_step_gen() yields too many times")) /\
  (_verified_steps (self w) = false ->
   code (S j) = GenReturn ->
   fst (training_step b bi (Z.of_nat _num_optimizing_steps - 1) w) = Return v /\
   _verified_steps
     (self (snd (training_step b bi (Z.of_nat _num_optimizing_steps - 1) w))) = true) /\
  (_verified_steps (self w) = true ->
   training_step b bi (Z.of_nat _num_optimizing_steps - 1) w =
   (Return v, add_event IncreaseGlobalStep (set_gen None w))) /\
  (forall (b' : Batch) (bi' k' : Z) (w' : World),
     _verified_steps (self w') = true ->
     _verified_steps (self (snd (training_step b' bi' k' w'))) = true).
Proof.
  intros Hu Hy.
  rewrite (training_step_uses b bi _ w _ Hu).
  set (w1 := set_gen (Some (mkGenerator code j false)) w).
  assert (Hg1 : _training_step_generator (self w1) = Some (mkGenerator code j false))
    by reflexivity.
  split; [| split; [| split]].
  - intros Hv [v' Hs].
    rewrite (training_step_too_many b bi w1 code j v v' Hg1 Hy Hs Hv). reflexivity.
  - intros Hv Hs.
    rewrite (training_step_last_checked b bi w1 code j v Hg1 Hy Hs Hv).
    split; reflexivity.
  - intros Hv.
    rewrite (training_step_last_verified b bi w1 code j v Hg1 Hy Hv). reflexivity.
  - intros b' bi' k' w'. apply verified_steps_persist.
Qed.

(** C3 (as amended): a call with the last optimizer index that returns leaves
    [_training_step_generator] at [None], so the call after it advances a
    generator newly made from [train_step_gen] on its own batch; a call with
    any other optimizer index leaves in the field the generator it advanced,
    so the field is not [None]; the one call that advances no generator, the
    one at which [train_step_gen] raises, leaves the field at [None]. *)
Theorem training_step_generator_field
    (b : Batch) (bi k : Z) (w : World) :
  (forall v,
     k = Z.of_nat _num_optimizing_steps - 1 ->
     fst (training_step b bi k w) = Return v ->
     _training_step_generator (self (snd (training_step b bi k w))) = None /\
     forall (b' : Batch) (bi' : Z) code',
       train_step_gen b' bi' = Return code' ->
       uses_generator b' bi' (snd (training_step b bi k w)) (new_generator code')) /\
  (forall g,
     k <> Z.of_nat _num_optimizing_steps - 1 ->
     uses_generator b bi w g ->
     _training_step_generator (self (snd (training_step b bi k w))) =
     Some (snd (next g))) /\
  (forall e,
     _training_step_generator (self w) = None ->
     train_step_gen b bi = Raise e ->
     _training_step_generator (self (snd (training_step b bi k w))) = None).
Proof.
  split; [| split].
  - intros v -> Hr.
    pose proof (training_step_reset_on_return b bi w v Hr) as Hnone.
    split; [exact Hnone |].
    intros b' bi' code' Hc. right. split; [exact Hnone |].
    exists code'. split; [exact Hc | reflexivity].
  - intros g Hk Hu.
    rewrite (training_step_uses b bi k w g Hu).
    apply training_step_keeps_generator; [reflexivity | exact Hk].
  - intros e Hg He. unfold training_step, bind, getattr, lift.
    rewrite Hg, He. exact Hg.
Qed.

(** ** The stopping epoch *)

Ltac run_all :=
  unfold run, on_pretrain_routine_end, training_epoch_end, summary_writer,
    set_reporter, reporter, increase_next_stopping_epochs, load_local,
    new_DummyExperiment, set_should_stop, cleanly_stopped_message,
    tensor_setitem0, tensor_item, tensor_iadd;
  run_method.

Lemma wrap_int32_small (z : Z) : in_int32 z -> wrap_int32 z = z.
Proof.
  unfold in_int32, int32_min, int32_max, wrap_int32. intros Hz.
  rewrite Z.mod_small; lia.
Qed.

Lemma fits_int64_iff (n : Z) : fits_int64 n = true <-> in_int64 n.
Proof.
  unfold fits_int64, in_int64. rewrite andb_true_iff, !Z.leb_le. tauto.
Qed.

(** The difference of two 32-bit integers fits 64 bits. *)
Lemma fits_int64_of_int32 (c n : Z) :
  in_int32 c -> in_int32 (c + n) -> fits_int64 n = true.
Proof.
  intros Hc Hs. apply fits_int64_iff.
  unfold in_int32, int32_min, int32_max, in_int64, int64_min, int64_max in *.
  lia.
Qed.

(** What [increase_next_stopping_epochs] does on well-formed buffers. *)

Lemma increase_next_stopping_epochs_wraps (n : Z) (w : World) (c : Z) (f : bool) :
  _next_stopping_epoch (self w) = [c] ->
  _cleanly_stopped (self w) = [f] ->
  fits_int64 n = true ->
  increase_next_stopping_epochs n w =
  (Return PySelf,
   mkWorld
     (with_cleanly_stopped [false]
        (with_next_stopping_epoch [wrap_int32 (c + n)] (self w)))
     (trainer w) (trace w) (dummies w)).
Proof.
  intros Hc Hf Hn. run_all. rewrite Hn, Hc. simpl. rewrite Hf. reflexivity.
Qed.

Lemma increase_next_stopping_epochs_unpack_error (n : Z) (w : World) :
  fits_int64 n = false ->
  increase_next_stopping_epochs n w =
  (Raise (RuntimeError "Overflow when unpacking long"), w).
Proof.
  intros Hn. run_all. rewrite Hn. reflexivity.
Qed.

(** What [on_pretrain_routine_end] does, case by case. *)

Lemma on_pretrain_routine_end_clean
    (cb : StoppingEpochCallback) (w : World) (c : Z) :
  _cleanly_stopped (self w) = [true] ->
  _next_stopping_epoch (self w) = [c] ->
  fits_int64 (num_epochs cb) = true ->
  on_pretrain_routine_end cb w =
  (Return PyNone,
   mkWorld
     (with_cleanly_stopped [false]
        (with_next_stopping_epoch [wrap_int32 (c + num_epochs cb)] (self w)))
     (trainer w) (trace w ++ [LogInfo "cleanly stopped: True"]) (dummies w)).
Proof.
  intros Hf Hc Hn. run_all. rewrite Hf. simpl. rewrite Hn, Hc. simpl.
  rewrite Hf. reflexivity.
Qed.

Lemma on_pretrain_routine_end_clean_error
    (cb : StoppingEpochCallback) (w : World) :
  _cleanly_stopped (self w) = [true] ->
  fits_int64 (num_epochs cb) = false ->
  on_pretrain_routine_end cb w =
  (Raise (RuntimeError "Overflow when unpacking long"),
   add_event (LogInfo "cleanly stopped: True") w).
Proof.
  intros Hf Hn. run_all. rewrite Hf. simpl. rewrite Hn. reflexivity.
Qed.

Lemma on_pretrain_routine_end_unclean
    (cb : StoppingEpochCallback) (w : World) :
  _cleanly_stopped (self w) = [false] ->
  on_pretrain_routine_end cb w =
  (Return PyNone, add_event (LogInfo "cleanly stopped: False") w).
Proof.
  intros Hf. run_all. rewrite Hf. reflexivity.
Qed.

Lemma on_pretrain_routine_end_no_scalar
    (cb : StoppingEpochCallback) (w : World) :
  (forall f, _cleanly_stopped (self w) <> [f]) ->
  on_pretrain_routine_end cb w = (Raise ValueError, w).
Proof.
  intros Hf. run_all.
  destruct (_cleanly_stopped (self w)) as [| f [| f' rest]]; try reflexivity.
  exfalso. apply (Hf f). reflexivity.
Qed.

(** ** The stopping epoch: claims *)

(** C4 (as amended): when the counter plus [num_epochs] lies in the range of
    the 32-bit tensor, [increase_next_stopping_epochs(num_epochs)] adds
    [num_epochs] to [_next_stopping_epoch], sets [_cleanly_stopped] to [False],
    returns [self], and changes nothing else in the module or around it.  The
    counter [c] is an element of a 32-bit tensor. *)
Theorem increase_next_stopping_epochs_adds (n : Z) (w : World) (c : Z) (f : bool) :
  _next_stopping_epoch (self w) = [c] ->
  _cleanly_stopped (self w) = [f] ->
  in_int32 c ->
  in_int32 (c + n) ->
  increase_next_stopping_epochs n w =
  (Return PySelf,
   mkWorld
     (with_cleanly_stopped [false] (with_next_stopping_epoch [c + n] (self w)))
     (trainer w) (trace w) (dummies w)).
Proof.
  intros Hc Hf Hi Hr.
  rewrite (increase_next_stopping_epochs_wraps n w c f Hc Hf
             (fits_int64_of_int32 c n Hi Hr)).
  rewrite (wrap_int32_small _ Hr). reflexivity.
Qed.

(** C5: [training_epoch_end] flushes the reporter with the current epoch, sets
    [trainer.should_stop] to [True] exactly when the current epoch equals the
    stored stopping epoch (and leaves it as it was otherwise), and changes
    nothing in the module; whatever the state, neither buffer is modified. *)
Theorem training_epoch_end_flushes_and_stops (w : World) :
  (forall r e,
     _reporter (self w) = Some r ->
     _next_stopping_epoch (self w) = [e] ->
     training_epoch_end w =
     (Return PyTrainResult,
      mkWorld (self w)
        (mkTrainer (if current_epoch (self w) =? e then true
                    else should_stop (trainer w)))
        (trace w ++ [Flush r (current_epoch (self w))]) (dummies w))) /\
  _next_stopping_epoch (self (snd (training_epoch_end w))) =
    _next_stopping_epoch (self w) /\
  _cleanly_stopped (self (snd (training_epoch_end w))) =
    _cleanly_stopped (self w).
Proof.
  split; [| split].
  - intros r e Hr He. run_all. rewrite Hr. simpl. rewrite He. simpl.
    destruct (current_epoch (self w) =? e); simpl.
    + reflexivity.
    + destruct w as [m [ss] tc d]; reflexivity.
  - run_all. split_matches; simpl; congruence.
  - run_all. split_matches; simpl; congruence.
Qed.

(** C6 (as amended): when [_cleanly_stopped] is [True] at entry,
    [on_pretrain_routine_end] raises the counter by [num_epochs], provided the
    sum lies in the range of the 32-bit counter, and clears the flag; when the
    flag is [False] it leaves the module as it is; whatever the state and
    [num_epochs], the counter changes only if the flag was [True]. *)
Theorem on_pretrain_routine_end_increases_when_clean
    (cb : StoppingEpochCallback) (w : World) :
  (forall c,
     _cleanly_stopped (self w) = [true] ->
     _next_stopping_epoch (self w) = [c] ->
     in_int32 c ->
     in_int32 (c + num_epochs cb) ->
     on_pretrain_routine_end cb w =
     (Return PyNone,
      mkWorld
        (with_cleanly_stopped [false]
           (with_next_stopping_epoch [c + num_epochs cb] (self w)))
        (trainer w) (trace w ++ [LogInfo "cleanly stopped: True"]) (dummies w))) /\
  (_cleanly_stopped (self w) = [false] ->
   on_pretrain_routine_end cb w =
   (Return PyNone, add_event (LogInfo "cleanly stopped: False") w)) /\
  (_next_stopping_epoch (self (snd (on_pretrain_routine_end cb w))) <>
     _next_stopping_epoch (self w) ->
   _cleanly_stopped (self w) = [true]).
Proof.
  split; [| split].
  - intros c Hf Hc Hi Hr.
    rewrite (on_pretrain_routine_end_clean cb w c Hf Hc
               (fits_int64_of_int32 c _ Hi Hr)).
    rewrite (wrap_int32_small _ Hr). reflexivity.
  - apply on_pretrain_routine_end_unclean.
  - intros Hne.
    destruct (_cleanly_stopped (self w)) as [| [|] [| f2 rest]] eqn:Hf;
      try reflexivity; exfalso; apply Hne.
    + rewrite on_pretrain_routine_end_no_scalar; [reflexivity |].
      intros f. rewrite Hf. discriminate.
    + rewrite on_pretrain_routine_end_no_scalar; [reflexivity |].
      intros f. rewrite Hf. discriminate.
    + rewrite (on_pretrain_routine_end_unclean cb w Hf). reflexivity.
    + rewrite on_pretrain_routine_end_no_scalar; [reflexivity |].
      intros f. rewrite Hf. discriminate.
Qed.

(** C9: a second [on_pretrain_routine_end] right after a first leaves the
    module, and so the counter and the flag, exactly as the first left it:
    a first invocation that finds the flag [True] and returns has cleared it,
    and one that raises has left the module untouched. *)
Theorem on_pretrain_routine_end_twice (cb : StoppingEpochCallback) (w : World) :
  self (snd (on_pretrain_routine_end cb (snd (on_pretrain_routine_end cb w)))) =
    self (snd (on_pretrain_routine_end cb w)) /\
  (_cleanly_stopped (self w) = [true] ->
   fst (on_pretrain_routine_end cb w) = Return PyNone ->
   _cleanly_stopped (self (snd (on_pretrain_routine_end cb w))) = [false]) /\
  (forall e,
     fst (on_pretrain_routine_end cb w) = Raise e ->
     self (snd (on_pretrain_routine_end cb w)) = self w).
Proof.
  assert (Hflag :
    (forall f, _cleanly_stopped (self w) <> [f]) \/
    _cleanly_stopped (self w) = [false] \/
    _cleanly_stopped (self w) = [true]).
  { destruct (_cleanly_stopped (self w)) as [| [|] [| f2 rest]];
      try (left; intros f; discriminate); auto. }
  destruct Hflag as [Hf | [Hf | Hf]].
  - rewrite (on_pretrain_routine_end_no_scalar cb w Hf). cbn [fst snd].
    rewrite (on_pretrain_routine_end_no_scalar cb w Hf).
    split; [reflexivity | split; [intros _; discriminate | reflexivity]].
  - rewrite (on_pretrain_routine_end_unclean cb w Hf). cbn [fst snd].
    rewrite (on_pretrain_routine_end_unclean cb
               (add_event (LogInfo "cleanly stopped: False") w) Hf).
    split; [reflexivity | split; [| intros e; discriminate]].
    rewrite Hf. discriminate.
  - destruct (fits_int64 (num_epochs cb)) eqn:Hn.
    + run_all. rewrite Hf. simpl. rewrite Hn. simpl. rewrite Hf. simpl.
      split; [reflexivity | split; [reflexivity | intros e; discriminate]].
    + rewrite (on_pretrain_routine_end_clean_error cb w Hf Hn). cbn [fst snd].
      rewrite (on_pretrain_routine_end_clean_error cb
                 (add_event (LogInfo "cleanly stopped: True") w) Hf Hn).
      split; [reflexivity | split; [intros _; discriminate | reflexivity]].
Qed.

(** ** What every call preserves *)

Lemma run_keeps_buffer_registry (c : call) (w : World) :
  _buffers (self (run c w)) = _buffers (self w).
Proof.
  destruct c; run_all; split_matches; simpl; congruence.
Qed.

Lemma run_keeps_tensors (c : call) (w : World) :
  match c with
  | Call_increase_next_stopping_epochs _ => True
  | Call_on_pretrain_routine_end _ => True
  | _ =>
      _next_stopping_epoch (self (run c w)) = _next_stopping_epoch (self w) /\
      _cleanly_stopped (self (run c w)) = _cleanly_stopped (self w)
  end.
Proof.
  destruct c; try exact I; split; run_all; split_matches; simpl; congruence.
Qed.

Lemma run_keeps_single_element (c : call) (w : World) :
  single_element w -> single_element (run c w).
Proof.
  unfold single_element. intros [Hn Hc].
  pose proof (run_keeps_tensors c w) as Hframe.
  destruct c;
    try (match type of Hframe with
         | _ /\ _ => destruct Hframe as [H1 H2]; rewrite H1, H2; split; assumption
         end);
    clear Hframe;
    destruct (_next_stopping_epoch (self w)) as [| c0 [| c1 rest]] eqn:En;
    try discriminate;
    destruct (_cleanly_stopped (self w)) as [| f0 [| f1 rest]] eqn:Ec;
    try discriminate.
  - simpl. destruct (fits_int64 n) eqn:Hfit.
    + rewrite (increase_next_stopping_epochs_wraps n w c0 f0 En Ec Hfit).
      split; reflexivity.
    + rewrite (increase_next_stopping_epochs_unpack_error n w Hfit). simpl.
      rewrite En, Ec. split; reflexivity.
  - simpl. destruct f0.
    + destruct (fits_int64 (num_epochs cb)) eqn:Hfit.
      * rewrite (on_pretrain_routine_end_clean cb w c0 Ec En Hfit).
        split; reflexivity.
      * rewrite (on_pretrain_routine_end_clean_error cb w Ec Hfit). simpl.
        rewrite En, Ec. split; reflexivity.
    + rewrite (on_pretrain_routine_end_unclean cb w Ec). simpl.
      rewrite En, Ec. split; reflexivity.
Qed.

Lemma run_keeps_reporter (c : call) (w : World) :
  _reporter (self w) <> None -> _reporter (self (run c w)) <> None.
Proof.
  intros Hr.
  destruct c; run_all; split_matches; simpl in *; congruence.
Qed.

Lemma reachable_invariant (w : World) :
  reachable w ->
  single_element w /\
  _buffers (self w) = ["_next_stopping_epoch"; "_cleanly_stopped"]%string /\
  _reporter (self w) <> None.
Proof.
  induction 1 as [tr d | c w Hw [Hs [Hb Hr]] | w lg epoch tr Hw [Hs [Hb Hr]]].
  - repeat split. simpl. discriminate.
  - split; [| split].
    + apply run_keeps_single_element; assumption.
    + rewrite run_keeps_buffer_registry; assumption.
    + apply run_keeps_reporter; assumption.
  - split; [| split]; assumption.
Qed.

(** C7: a new module has exactly two registered buffers,
    [_next_stopping_epoch], one 32-bit integer holding -1, and
    [_cleanly_stopped], one boolean holding [True]; no call registers or drops
    a buffer, and every call, returning or raising, keeps each of the two a
    tensor of exactly one element. *)
Theorem buffers_stay_single_element :
  (forall tr d,
     _buffers (self (__init__ tr d)) =
       ["_next_stopping_epoch"; "_cleanly_stopped"]%string /\
     _next_stopping_epoch (self (__init__ tr d)) = [-1] /\
     _cleanly_stopped (self (__init__ tr d)) = [true]) /\
  (forall c w,
     single_element w ->
     single_element (run c w) /\ _buffers (self (run c w)) = _buffers (self w)) /\
  (forall w,
     reachable w ->
     single_element w /\
     _buffers (self w) = ["_next_stopping_epoch"; "_cleanly_stopped"]%string).
Proof.
  split; [| split].
  - intros tr d. repeat split.
  - intros c w Hs. split.
    + apply run_keeps_single_element; assumption.
    + apply run_keeps_buffer_registry.
  - intros w Hw. destruct (reachable_invariant w Hw) as [Hs [Hb _]].
    split; assumption.
Qed.

(** C8: the [reporter] property never gives [None]: [__init__] installs a
    [DummyExperiment]; [set_reporter(None)] installs a [DummyExperiment] made
    at that call, a new object each time; [set_reporter] with any other
    argument installs that very argument; both return [self] and touch no
    other field; and no call ever leaves [_reporter] at [None]. *)
Theorem reporter_never_None :
  (forall tr d,
     reporter (__init__ tr d) =
       (Return (Some (DummyExperiment d)), __init__ tr d)) /\
  (forall w,
     set_reporter None w =
       (Return PySelf,
        mkWorld (with_reporter (Some (DummyExperiment (dummies w))) (self w))
          (trainer w) (trace w) (S (dummies w)))) /\
  (forall w,
     _reporter (self (snd (set_reporter None (snd (set_reporter None w))))) <>
     _reporter (self (snd (set_reporter None w)))) /\
  (forall r w,
     set_reporter (Some r) w =
       (Return PySelf,
        mkWorld (with_reporter (Some r) (self w))
          (trainer w) (trace w) (dummies w))) /\
  (forall w, reachable w -> exists r, reporter w = (Return (Some r), w)).
Proof.
  split; [| split; [| split; [| split]]].
  - reflexivity.
  - reflexivity.
  - intros w. simpl. intros Heq. injection Heq as Heq. lia.
  - reflexivity.
  - intros w Hw. destruct (reachable_invariant w Hw) as [_ [_ Hr]].
    unfold reporter, getattr.
    destruct (_reporter (self w)) as [r |]; [| congruence].
    exists r. reflexivity.
Qed.

(** ** The summary writer *)

Lemma summary_writer_not_collection (w : World) :
  py_is (_summary_writer_logger (self w)) (logger (self w)) = false ->
  is_LoggerCollection (logger (self w)) = false ->
  summary_writer w =
  (Raise (UnboundLocalError "logger"),
   mkWorld
     (with_summary_writer_logger (logger (self w))
        (with_summary_writer None (self w)))
     (trainer w) (trace w) (dummies w)).
Proof.
  intros Hne Hnc. run_all. rewrite Hne.
  destruct (logger (self w)) as [[a ex | a it | a] |]; simpl in *;
    try discriminate; reflexivity.
Qed.

(** A later access with the same logger finds the cache and gives [None]. *)
Lemma summary_writer_cached_None (w : World) :
  py_is (_summary_writer_logger (self w)) (logger (self w)) = false ->
  is_LoggerCollection (logger (self w)) = false ->
  fst (summary_writer (snd (summary_writer w))) = Return None.
Proof.
  intros Hne Hnc. rewrite (summary_writer_not_collection w Hne Hnc).
  run_all.
  destruct (logger (self w)) as [[a ex | a it | a] |]; simpl in *;
    rewrite ?Nat.eqb_refl; try discriminate; reflexivity.
Qed.

(** * Further properties of the methods *)

(** ** [training_step] when things go wrong *)

Lemma next_raise_finishes (g : generator) (e : exn) :
  fst (next g) = Raise e ->
  gen_finished (snd (next g)) = true /\
  next (snd (next g)) = (Raise StopIteration, snd (next g)).
Proof.
  unfold next. destruct (gen_finished g) eqn:Hf; simpl.
  - intros _. rewrite Hf. split; reflexivity.
  - destruct (gen_code g (gen_pos g)); simpl; intros H;
      try discriminate; split; reflexivity.
Qed.

(** X1: when [train_step_gen] raises at the call, as the method of the base
    class does, [training_step] on a module with no generator raises the same
    exception and leaves everything as it was. *)
Theorem training_step_propagates_train_step_gen_error
    (b : Batch) (bi k : Z) (w : World) (e : exn) :
  _training_step_generator (self w) = None ->
  train_step_gen b bi = Raise e ->
  training_step b bi k w = (Raise e, w).
Proof.
  intros Hg He. unfold training_step, bind, getattr, lift. rewrite Hg, He.
  reflexivity.
Qed.

(** X2: when the first advance of the generator raises (the generator is
    exhausted, or its body raised), [training_step] raises that exception and
    keeps the finished generator in the field; every later call, whatever its
    arguments, raises [StopIteration] and changes nothing. *)
Theorem training_step_after_generator_failure
    (b : Batch) (bi k : Z) (w : World) (g : generator) (e : exn) :
  uses_generator b bi w g ->
  fst (next g) = Raise e ->
  training_step b bi k w = (Raise e, set_gen (Some (snd (next g))) w) /\
  forall (b' : Batch) (bi' k' : Z),
    training_step b' bi' k' (set_gen (Some (snd (next g))) w) =
    (Raise StopIteration, set_gen (Some (snd (next g))) w).
Proof.
  intros Hu He. destruct (next_raise_finishes g e He) as [_ Hnext].
  split.
  - rewrite (training_step_uses b bi k w g Hu).
    unfold training_step, next_training_step_generator, bind, getattr, pass, ret,
      set_gen; simpl.
    destruct (next g) as [r g']; simpl in *. subst r. reflexivity.
  - intros b' bi' k'.
    unfold training_step, next_training_step_generator, bind, getattr, pass, ret,
      set_gen; simpl.
    rewrite Hnext. reflexivity.
Qed.

(** X3: on the call with the last optimizer index, with the steps not yet
    verified, when the generator yields [v] and its body then raises [e]
    rather than ending, the call raises [e], not the too-many-yields error;
    [_verified_steps] stays [False], the finished generator stays in the
    field, and the global step is not advanced. *)
Theorem training_step_check_propagates_generator_error
    (b : Batch) (bi : Z) (w : World) code (j : nat) (v : StepResult) (e : exn) :
  uses_generator b bi w (mkGenerator code j false) ->
  code j = Yield v ->
  code (S j) = GenRaise e ->
  is_StopIteration e = false ->
  _verified_steps (self w) = false ->
  training_step b bi (Z.of_nat _num_optimizing_steps - 1) w =
  (Raise e, set_gen (Some (mkGenerator code (S j) true)) w).
Proof.
  intros Hu Hy Hr He Hv.
  rewrite (training_step_uses b bi _ w _ Hu).
  run_method. rewrite Hy, Z.eqb_refl; simpl. rewrite Hv; simpl.
  rewrite Hr; simpl. rewrite He; simpl. rewrite He. reflexivity.
Qed.

(** X4: a call of [training_step] advances the global step exactly when it is
    a call with the last optimizer index that returns; any other call, and any
    call that raises, leaves the trace as it was. *)
Theorem training_step_global_step (b : Batch) (bi k : Z) (w : World) :
  trace (snd (training_step b bi k w)) =
  trace w ++
  match fst (training_step b bi k w) with
  | Return _ =>
      if k =? Z.of_nat _num_optimizing_steps - 1 then [IncreaseGlobalStep] else []
  | Raise _ => []
  end.
Proof.
  run_method. split_matches; simpl; rewrite ?app_nil_r; try reflexivity;
    congruence.
Qed.

(** X5: [training_step] touches nothing but its generator, the verified flag
    and the global step: the reporter, both buffers and their registry, the
    summary-writer cache, the logger, the epoch, the trainer and the dummy
    experiments are as before, whether the call returns or raises. *)
Theorem training_step_frame (b : Batch) (bi k : Z) (w : World) :
  _reporter (self (snd (training_step b bi k w))) = _reporter (self w) /\
  _buffers (self (snd (training_step b bi k w))) = _buffers (self w) /\
  _next_stopping_epoch (self (snd (training_step b bi k w))) =
    _next_stopping_epoch (self w) /\
  _cleanly_stopped (self (snd (training_step b bi k w))) =
    _cleanly_stopped (self w) /\
  _summary_writer (self (snd (training_step b bi k w))) =
    _summary_writer (self w) /\
  _summary_writer_logger (self (snd (training_step b bi k w))) =
    _summary_writer_logger (self w) /\
  logger (self (snd (training_step b bi k w))) = logger (self w) /\
  current_epoch (self (snd (training_step b bi k w))) = current_epoch (self w) /\
  trainer (snd (training_step b bi k w)) = trainer w /\
  dummies (snd (training_step b bi k w)) = dummies w.
Proof.
  repeat split; run_method; split_matches; simpl; congruence.
Qed.

(** X6: a whole batch, [_num_optimizing_steps] calls with optimizer indices
    0, 1, ... on a generator that yields that many values (and ends there, or
    the steps are already verified), returns the yielded values in order and
    leaves the module ready for the next batch: no generator in the field,
    [_verified_steps] at [True], the global step advanced once, and nothing
    else changed. *)
Theorem optimizer_loop_full_batch
    (b : Batch) (bi : Z) (w : World) code (vs : nat -> StepResult) :
  _training_step_generator (self w) = None ->
  train_step_gen b bi = Return code ->
  (0 < _num_optimizing_steps)%nat ->
  (forall i, (i < _num_optimizing_steps)%nat -> code i = Yield (vs i)) ->
  _verified_steps (self w) = true \/ code _num_optimizing_steps = GenReturn ->
  optimizer_loop b bi _num_optimizing_steps 0 w =
  (Return (map vs (seq 0 _num_optimizing_steps)),
   add_event IncreaseGlobalStep (set_gen None (set_verified true w))).
Proof.
  intros Hg Hc Hpos Hy Hend.
  destruct _num_optimizing_steps as [| n] eqn:HN; [lia |].
  rewrite (optimizer_loop_first b bi n 0 w code Hg Hc).
  rewrite <- HN in *.
  replace _num_optimizing_steps with (S n) at 1 by congruence.
  rewrite (optimizer_loop_to_last b bi code vs n 0
             (set_gen (Some (new_generator code)) w)).
  - rewrite HN. reflexivity.
  - reflexivity.
  - lia.
  - intros i Hi. apply Hy. lia.
  - exact Hend.
Qed.

(** ** [summary_writer] with a collection, and on a second access *)

Lemma first_tensorboard_None (ls : list pl_logger) :
  first_tensorboard ls = None <->
  forall l, In l ls -> is_TensorBoardLogger l = false.
Proof.
  induction ls as [| l ls IH]; simpl.
  - split; [intros _ l [] | reflexivity].
  - destruct l as [a ex | a it | a]; simpl.
    + split; [discriminate |].
      intros H. specialize (H (TensorBoardLogger a ex) (or_introl eq_refl)).
      discriminate.
    + rewrite IH. split.
      * intros H l [<- | Hl]; [reflexivity | apply H; assumption].
      * intros H l Hl. apply H. right. assumption.
    + rewrite IH. split.
      * intros H l [<- | Hl]; [reflexivity | apply H; assumption].
      * intros H l Hl. apply H. right. assumption.
Qed.

Lemma first_tensorboard_Some (ls : list pl_logger) (ex : SummaryWriter) :
  first_tensorboard ls = Some ex ->
  exists pre a post,
    ls = pre ++ TensorBoardLogger a ex :: post /\
    forall l, In l pre -> is_TensorBoardLogger l = false.
Proof.
  induction ls as [| l ls IH]; simpl; [discriminate |].
  destruct l as [a ex' | a it | a]; simpl.
  - intros H. injection H as ->. exists [], a, ls. split; [reflexivity |].
    intros l [].
  - intros H. destruct (IH H) as [pre [a' [post [-> Hpre]]]].
    exists (LoggerCollection a it :: pre), a', post. split; [reflexivity |].
    intros l [<- | Hl]; [reflexivity | apply Hpre; assumption].
  - intros H. destruct (IH H) as [pre [a' [post [-> Hpre]]]].
    exists (OtherLogger a :: pre), a', post. split; [reflexivity |].
    intros l [<- | Hl]; [reflexivity | apply Hpre; assumption].
Qed.

Lemma py_is_refl (l : option pl_logger) : py_is l l = true.
Proof.
  destruct l as [l |]; simpl; [apply Nat.eqb_refl | reflexivity].
Qed.

(** X7: when [self.logger] is a [LoggerCollection] other than the cached
    logger, [summary_writer] returns the experiment of the first
    [TensorBoardLogger] directly in the collection, and [None] when the
    collection holds none directly; it caches that answer together with
    [self.logger] and changes nothing else. *)
Theorem summary_writer_collection
    (w : World) (a : nat) (iterable : list pl_logger) :
  logger (self w) = Some (LoggerCollection a iterable) ->
  py_is (_summary_writer_logger (self w)) (logger (self w)) = false ->
  summary_writer w =
    (Return (first_tensorboard iterable),
     mkWorld
       (with_summary_writer (first_tensorboard iterable)
          (with_summary_writer_logger (logger (self w)) (self w)))
       (trainer w) (trace w) (dummies w)) /\
  (first_tensorboard iterable = None <->
   forall l, In l iterable -> is_TensorBoardLogger l = false) /\
  (forall ex,
     first_tensorboard iterable = Some ex ->
     exists pre a' post,
       iterable = pre ++ TensorBoardLogger a' ex :: post /\
       forall l, In l pre -> is_TensorBoardLogger l = false).
Proof.
  intros Hl Hne. split; [| split].
  - run_all. rewrite Hne. rewrite Hl. simpl.
    destruct (first_tensorboard iterable); reflexivity.
  - apply first_tensorboard_None.
  - apply first_tensorboard_Some.
Qed.

(** X8: right after any access to [summary_writer], one that raised included,
    a second access with the logger unchanged returns the cached writer, does
    not raise and changes nothing; when the first access returned a value the
    second returns the same value. *)
Theorem summary_writer_second_access (w : World) :
  summary_writer (snd (summary_writer w)) =
    (Return (_summary_writer (self (snd (summary_writer w)))),
     snd (summary_writer w)) /\
  (forall x,
     fst (summary_writer w) = Return x ->
     fst (summary_writer (snd (summary_writer w))) = Return x).
Proof.
  assert (Hcached :
    py_is (_summary_writer_logger (self (snd (summary_writer w))))
      (logger (self (snd (summary_writer w)))) = true).
  { run_all.
    destruct (py_is (_summary_writer_logger (self w)) (logger (self w))) eqn:Hc;
      simpl; [exact Hc |].
    destruct (logger (self w)) as [[a ex | a it | a] |] eqn:Hl; simpl;
      try destruct (first_tensorboard it); simpl; rewrite ?Hl; simpl;
      rewrite ?Nat.eqb_refl; reflexivity. }
  assert (Hsecond :
    summary_writer (snd (summary_writer w)) =
    (Return (_summary_writer (self (snd (summary_writer w)))),
     snd (summary_writer w))).
  { unfold summary_writer at 1. unfold bind, getattr. simpl.
    rewrite Hcached. reflexivity. }
  split; [exact Hsecond |].
  intros x Hx. rewrite Hsecond. simpl. revert Hx. run_all.
  destruct (py_is (_summary_writer_logger (self w)) (logger (self w))); simpl;
    [intros H; exact H |].
  destruct (logger (self w)) as [[a ex | a it | a] |]; simpl;
    try destruct (first_tensorboard it); simpl; intros H;
    try discriminate; exact H.
Qed.

(** ** The stopping epoch, further *)

Lemma wrap_int32_add (x a b : Z) :
  wrap_int32 (wrap_int32 (x + a) + b) = wrap_int32 (x + (a + b)).
Proof.
  unfold wrap_int32.
  replace ((x + a + 2 ^ 31) mod 2 ^ 32 - 2 ^ 31 + b + 2 ^ 31)
    with ((x + a + 2 ^ 31) mod 2 ^ 32 + b) by lia.
  rewrite Zplus_mod_idemp_l. f_equal. f_equal. lia.
Qed.

Lemma wrap_int32_range (z : Z) : in_int32 (wrap_int32 z).
Proof.
  unfold in_int32, int32_min, int32_max, wrap_int32.
  pose proof (Z.mod_pos_bound (z + 2 ^ 31) (2 ^ 32) ltac:(lia)). lia.
Qed.

(** X9: for increments that fit 64 bits, as does their sum, two increases in
    a row are one increase by the sum: the counter and the flag, the value
    returned or the exception raised, and everything else agree, wrap-around
    on 32 bits included. *)
Theorem increase_next_stopping_epochs_compose (a b : Z) (w : World) :
  in_int64 a ->
  in_int64 b ->
  in_int64 (a + b) ->
  increase_next_stopping_epochs b (snd (increase_next_stopping_epochs a w)) =
  increase_next_stopping_epochs (a + b) w.
Proof.
  intros Ha Hb Hab.
  apply fits_int64_iff in Ha. apply fits_int64_iff in Hb.
  apply fits_int64_iff in Hab.
  run_all. rewrite Ha, Hab. simpl.
  destruct (_cleanly_stopped (self w)) as [| f rest] eqn:Hf; simpl;
    rewrite Hb; simpl; rewrite ?Hf; simpl; rewrite map_map;
    rewrite (map_ext _ (fun x => wrap_int32 (x + (a + b)))
               (fun x => wrap_int32_add x a b));
    reflexivity.
Qed.

(** X10: only [training_epoch_end] writes [trainer.should_stop]: every other
    call leaves the trainer as it was; and no call ever takes [should_stop]
    back from [True] to [False]. *)
Theorem should_stop_only_raised (c : call) (w : World) :
  (c <> Call_training_epoch_end -> trainer (run c w) = trainer w) /\
  (should_stop (trainer w) = true -> should_stop (trainer (run c w)) = true).
Proof.
  split.
  - intros Hc. destruct c; try congruence;
      run_all; split_matches; simpl; congruence.
  - intros Hs. destruct c; run_all; split_matches; simpl; congruence.
Qed.

Lemma training_epoch_end_returns (w : World) (r : Reporter) (e : Z) :
  _reporter (self w) = Some r ->
  _next_stopping_epoch (self w) = [e] ->
  training_epoch_end w =
  (Return PyTrainResult,
   mkWorld (self w)
     (mkTrainer (if current_epoch (self w) =? e then true
                 else should_stop (trainer w)))
     (trace w ++ [Flush r (current_epoch (self w))]) (dummies w)).
Proof.
  intros Hr He. run_all. rewrite Hr. simpl. rewrite He. simpl.
  destruct (current_epoch (self w) =? e); simpl.
  - reflexivity.
  - destruct w as [m [ss] tc d]; reflexivity.
Qed.

(** X11: a new module prepared by [on_pretrain_routine_end] of a
    [StoppingEpochCallback(num_epochs)] is told to stop at the end of epoch
    [num_epochs - 1], that is after [num_epochs] epochs counted from 0, and at
    the end of no other epoch (when [num_epochs - 1] fits the 32-bit counter);
    [training_epoch_end] returns there. *)
Theorem new_module_stops_after_num_epochs
    (tr : Trainer) (d : nat) (cb : StoppingEpochCallback) (epoch : Z) :
  in_int32 (num_epochs cb - 1) ->
  fst (training_epoch_end
         (at_epoch epoch (snd (on_pretrain_routine_end cb (__init__ tr d))))) =
    Return PyTrainResult /\
  should_stop
    (trainer
       (snd (training_epoch_end
               (at_epoch epoch (snd (on_pretrain_routine_end cb (__init__ tr d))))))) =
  (epoch =? num_epochs cb - 1) || should_stop tr.
Proof.
  intros Hr.
  assert (Hfit : fits_int64 (num_epochs cb) = true).
  { apply (fits_int64_of_int32 (-1)).
    - unfold in_int32, int32_min, int32_max. lia.
    - replace (-1 + num_epochs cb) with (num_epochs cb - 1) by lia. exact Hr. }
  rewrite (on_pretrain_routine_end_clean cb (__init__ tr d) (-1)
             eq_refl eq_refl Hfit).
  rewrite (training_epoch_end_returns _ (DummyExperiment d)
             (wrap_int32 (-1 + num_epochs cb))) by reflexivity.
  cbn [fst snd trainer should_stop current_epoch self at_epoch].
  replace (-1 + num_epochs cb) with (num_epochs cb - 1) by lia.
  rewrite (wrap_int32_small _ Hr).
  split; [reflexivity |].
  destruct (epoch =? num_epochs cb - 1); reflexivity.
Qed.

(** X12: in every reachable state the stored stopping epoch is one number in
    the range of a 32-bit integer. *)
Theorem stopping_epoch_stays_int32 (w : World) :
  reachable w ->
  exists e, _next_stopping_epoch (self w) = [e] /\ in_int32 e.
Proof.
  induction 1 as [tr d | c w Hw [e [He Hr]] | w lg epoch tr Hw IH].
  - exists (-1). split; [reflexivity |].
    unfold in_int32, int32_min, int32_max. lia.
  - pose proof (run_keeps_tensors c w) as Hframe.
    destruct c;
      try (match type of Hframe with
           | _ /\ _ =>
               destruct Hframe as [Hn Hc]; exists e; rewrite Hn; split; assumption
           end).
    + unfold run. destruct (fits_int64 n) eqn:Hfit.
      * exists (wrap_int32 (e + n)). split; [| apply wrap_int32_range].
        run_all. rewrite Hfit, He. simpl. split_matches; reflexivity.
      * exists e.
        rewrite (increase_next_stopping_epochs_unpack_error n w Hfit).
        split; assumption.
    + destruct (_cleanly_stopped (self w)) as [| [|] [| f2 rest]] eqn:Hf.
      * exists e. run_all. rewrite Hf. simpl. split; assumption.
      * unfold run. destruct (fits_int64 (num_epochs cb)) eqn:Hfit.
        -- exists (wrap_int32 (e + num_epochs cb)).
           split; [| apply wrap_int32_range].
           rewrite (on_pretrain_routine_end_clean cb w e Hf He Hfit).
           reflexivity.
        -- exists e.
           rewrite (on_pretrain_routine_end_clean_error cb w Hf Hfit).
           split; assumption.
      * exists e. run_all. rewrite Hf. simpl. split; assumption.
      * exists e. run_all. rewrite Hf. simpl. split; assumption.
      * exists e. run_all. rewrite Hf. simpl. split; assumption.
  - exact IH.
Qed.

(** X13: after [set_reporter(r)], [training_epoch_end] flushes [r]; after
    [set_reporter(None)] it flushes the dummy experiment that call made. *)
Theorem set_reporter_then_epoch_end_flushes
    (r : option Reporter) (w : World) (e : Z) :
  _next_stopping_epoch (self w) = [e] ->
  trace (snd (training_epoch_end (snd (set_reporter r w)))) =
  trace w ++
  [Flush (match r with Some r' => r' | None => DummyExperiment (dummies w) end)
     (current_epoch (self w))].
Proof.
  intros He.
  destruct r as [r |].
  - rewrite (training_epoch_end_returns (snd (set_reporter (Some r) w)) r e);
      [reflexivity | reflexivity | exact He].
  - rewrite (training_epoch_end_returns (snd (set_reporter None w))
               (DummyExperiment (dummies w)) e);
      [reflexivity | reflexivity | exact He].
Qed.

End Lightning.

Arguments Yield {StepResult} v.
Arguments GenReturn {StepResult}.
Arguments GenRaise {StepResult} e.
Arguments mkGenerator {StepResult} gen_code gen_pos gen_finished.
Arguments training_step {Batch StepResult} train_step_gen _num_optimizing_steps
  batch batch_idx optimizer_idx _.
Arguments optimizer_loop {Batch StepResult} train_step_gen _num_optimizing_steps
  batch batch_idx n from _.
Arguments set_reporter {StepResult} reporter _.
Arguments increase_next_stopping_epochs {StepResult} n _.
Arguments summary_writer {StepResult} _.
Arguments training_epoch_end {StepResult} _.
Arguments on_pretrain_routine_end {StepResult} cb _.
Arguments self {StepResult} w.
Arguments trainer {StepResult} w.
Arguments trace {StepResult} w.
Arguments mkWorld {StepResult} self trainer trace dummies.
Arguments _training_step_generator {StepResult} r.
Arguments _verified_steps {StepResult} r.
Arguments _next_stopping_epoch {StepResult} r.
Arguments _cleanly_stopped {StepResult} r.
Arguments _summary_writer {StepResult} r.
Arguments _summary_writer_logger {StepResult} r.
Arguments _reporter {StepResult} r.
Arguments logger {StepResult} r.
Arguments current_epoch {StepResult} r.

(** * A sample subclass

    Batches carry nothing and a step yields an integer: the generator of
    [sample_train_step_gen yields] yields 10, 20, ... [yields] times and then
    returns. *)

Definition sample_value (i : nat) : Z := 10 * (Z.of_nat i + 1).

Definition sample_code (yields : nat) (i : nat) : gen_event Z :=
  if (i <? yields)%nat then Yield (sample_value i) else GenReturn.

Definition sample_train_step_gen (yields : nat) (batch : unit) (batch_idx : Z)
    : outcome (nat -> gen_event Z) :=
  Return (sample_code yields).

(** A module just made, in a world with no dummy experiment yet. *)
Definition new_world : World Z := __init__ Z (mkTrainer false) 0.

(** The host attaches a logger and moves to an epoch. *)
Definition host_sets (lg : option pl_logger) (epoch : Z) (w : World Z) : World Z :=
  mkWorld
    (mkModule Z (_training_step_generator (self w)) (_reporter (self w))
       (_verified_steps (self w)) (_summary_writer_logger (self w))
       (_summary_writer (self w)) (_buffers Z (self w))
       (_next_stopping_epoch (self w)) (_cleanly_stopped (self w))
       lg epoch)
    (trainer w) (trace w) (dummies Z w).

(** ** The step protocol on the sample *)

Lemma training_step_returns_successive_yields_witness :
  fst (optimizer_loop (sample_train_step_gen 2) 2 tt 0 2 0 new_world) =
    Return [10; 20] /\
  _training_step_generator
    (self (snd (optimizer_loop (sample_train_step_gen 2) 2 tt 0 2 0 new_world))) =
    None.
Proof.
  apply (training_step_returns_successive_yields unit Z
           (sample_train_step_gen 2) 2 tt 0 new_world (sample_code 2)
           sample_value 1).
  - reflexivity.
  - reflexivity.
  - lia.
  - intros i Hi. destruct i as [| [| i]]; [reflexivity | reflexivity | lia].
  - intros _. right. reflexivity.
Defined.

(** With one optimizer and a generator that yields twice, the only call of
    the batch does not return the first yielded value: it raises. *)
Lemma training_step_last_call_may_raise :
  sample_code 2 0 = Yield 10 /\
  fst (training_step (sample_train_step_gen 2) 1 tt 0 0 new_world) =
    Raise (RuntimeError "training_step_gen() yields too many times") /\
  fst (training_step (sample_train_step_gen 2) 1 tt 0 0 new_world) <> Return 10.
Proof.
  split; [reflexivity | split; [reflexivity | discriminate]].
Qed.

Lemma training_step_verifies_yield_count_witness :
  fst (training_step (sample_train_step_gen 1) 1 tt 0 0 new_world) = Return 10 /\
  _verified_steps
    (self (snd (training_step (sample_train_step_gen 1) 1 tt 0 0 new_world))) = true.
Proof.
  refine (proj1 (proj2
    (training_step_verifies_yield_count unit Z (sample_train_step_gen 1) 1 tt 0
       new_world (sample_code 1) 0 10 _ _)) _ _).
  - right. split; [reflexivity |]. exists (sample_code 1). split; reflexivity.
  - reflexivity.
  - reflexivity.
  - reflexivity.
Defined.

(** The same call leaves the generator in the field. *)
Lemma training_step_raise_keeps_generator :
  _training_step_generator
    (self (snd (training_step (sample_train_step_gen 2) 1 tt 0 0 new_world))) =
    Some (mkGenerator (sample_code 2) 2 false) /\
  _training_step_generator
    (self (snd (training_step (sample_train_step_gen 2) 1 tt 0 0 new_world))) <>
    None.
Proof.
  split; [reflexivity | discriminate].
Qed.

Lemma training_step_generator_field_witness :
  _training_step_generator
    (self (snd (training_step (sample_train_step_gen 1) 1 tt 0 0 new_world))) = None /\
  _training_step_generator
    (self (snd (training_step (sample_train_step_gen 2) 2 tt 0 0 new_world))) =
    Some (mkGenerator (sample_code 2) 1 false) /\
  _training_step_generator
    (self (snd (training_step (fun _ _ => Raise NotImplementedError) 2 tt 0 0
                  new_world))) = None.
Proof.
  split; [| split].
  - refine (proj1 (proj1
      (training_step_generator_field unit Z (sample_train_step_gen 1) 1 tt 0 0
         new_world) 10 _ _)); reflexivity.
  - refine (proj1 (proj2
      (training_step_generator_field unit Z (sample_train_step_gen 2) 2 tt 0 0
         new_world)) (new_generator Z (sample_code 2)) _ _).
    + discriminate.
    + right. split; [reflexivity |]. exists (sample_code 2). split; reflexivity.
  - refine (proj2 (proj2
      (training_step_generator_field unit Z (fun _ _ => Raise NotImplementedError)
         2 tt 0 0 new_world)) NotImplementedError _ _); reflexivity.
Defined.

(** ** The stopping epoch on the sample *)

Lemma increase_next_stopping_epochs_adds_witness :
  increase_next_stopping_epochs 5 new_world =
  (Return PySelf,
   mkWorld
     (with_cleanly_stopped Z [false]
        (with_next_stopping_epoch Z [4] (self new_world)))
     (trainer new_world) (trace new_world) (dummies Z new_world)).
Proof.
  apply (increase_next_stopping_epochs_adds Z 5 new_world (-1) true).
  - reflexivity.
  - reflexivity.
  - unfold in_int32, int32_min, int32_max. lia.
  - unfold in_int32, int32_min, int32_max. lia.
Defined.

(** A module whose counter has been raised to 2147483646. *)
Definition near_overflow : World Z :=
  snd (increase_next_stopping_epochs 2147483647 new_world).

(** Two more epochs do not give 2147483648: the 32-bit counter wraps. *)
Lemma increase_next_stopping_epochs_overflow :
  _next_stopping_epoch (self near_overflow) = [2147483646] /\
  _next_stopping_epoch (self (snd (increase_next_stopping_epochs 2 near_overflow))) =
    [-2147483648] /\
  _next_stopping_epoch (self (snd (increase_next_stopping_epochs 2 near_overflow))) <>
    [2147483646 + 2].
Proof.
  split; [reflexivity | split; [reflexivity | discriminate]].
Qed.

(** One epoch asked for: the first epoch, numbered 0, is the last. *)
Definition one_epoch : World Z := snd (increase_next_stopping_epochs 1 new_world).

Lemma training_epoch_end_flushes_and_stops_witness :
  training_epoch_end one_epoch =
  (Return PyTrainResult,
   mkWorld (self one_epoch) (mkTrainer true) [Flush (DummyExperiment 0) 0] 1%nat) /\
  training_epoch_end new_world =
  (Return PyTrainResult,
   mkWorld (self new_world) (mkTrainer false) [Flush (DummyExperiment 0) 0] 1%nat).
Proof.
  split.
  - refine (proj1 (training_epoch_end_flushes_and_stops Z one_epoch)
              (DummyExperiment 0) 0 _ _); reflexivity.
  - refine (proj1 (training_epoch_end_flushes_and_stops Z new_world)
              (DummyExperiment 0) (-1) _ _); reflexivity.
Defined.

Lemma on_pretrain_routine_end_increases_when_clean_witness :
  on_pretrain_routine_end (mkCallback 3) new_world =
  (Return PyNone,
   mkWorld
     (with_cleanly_stopped Z [false]
        (with_next_stopping_epoch Z [2] (self new_world)))
     (trainer new_world) [LogInfo "cleanly stopped: True"] (dummies Z new_world)) /\
  on_pretrain_routine_end (mkCallback 3) one_epoch =
  (Return PyNone, add_event Z (LogInfo "cleanly stopped: False") one_epoch).
Proof.
  split.
  - refine (proj1
      (on_pretrain_routine_end_increases_when_clean Z (mkCallback 3) new_world)
      (-1) _ _ _ _).
    + reflexivity.
    + reflexivity.
    + unfold in_int32, int32_min, int32_max. lia.
    + unfold in_int32, int32_min, int32_max. simpl. lia.
  - refine (proj1 (proj2
      (on_pretrain_routine_end_increases_when_clean Z (mkCallback 3) one_epoch)) _).
    reflexivity.
Defined.

(** With the flag [True] and [num_epochs] at 2^32 the callback returns and the
    counter is where it was, not 2^32 higher. *)
Lemma on_pretrain_routine_end_wraps_counter :
  _cleanly_stopped (self new_world) = [true] /\
  _next_stopping_epoch (self new_world) = [-1] /\
  fst (on_pretrain_routine_end (mkCallback 4294967296) new_world) = Return PyNone /\
  _next_stopping_epoch
    (self (snd (on_pretrain_routine_end (mkCallback 4294967296) new_world))) = [-1] /\
  _next_stopping_epoch
    (self (snd (on_pretrain_routine_end (mkCallback 4294967296) new_world))) <>
    [-1 + 4294967296].
Proof.
  repeat split; discriminate.
Qed.

Lemma on_pretrain_routine_end_twice_witness :
  _next_stopping_epoch
    (self (snd (on_pretrain_routine_end (mkCallback 3)
                  (snd (on_pretrain_routine_end (mkCallback 3) new_world))))) = [2] /\
  _cleanly_stopped
    (self (snd (on_pretrain_routine_end (mkCallback 3) new_world))) = [false] /\
  self (snd (on_pretrain_routine_end (mkCallback (2 ^ 63)) new_world)) =
    self new_world.
Proof.
  split; [| split].
  - rewrite (proj1 (on_pretrain_routine_end_twice Z (mkCallback 3) new_world)).
    reflexivity.
  - refine (proj1 (proj2
      (on_pretrain_routine_end_twice Z (mkCallback 3) new_world)) _ _);
      reflexivity.
  - refine (proj2 (proj2
      (on_pretrain_routine_end_twice Z (mkCallback (2 ^ 63)) new_world))
      (RuntimeError "Overflow when unpacking long") _).
    reflexivity.
Defined.

(** ** The summary writer on the sample *)

(** The host has attached a plain TensorBoard logger. *)
Definition with_tensorboard : World Z :=
  host_sets (Some (TensorBoardLogger 1%nat 7%nat)) 0 new_world.

(** The host has attached a logger that is neither a collection nor a
    TensorBoard logger. *)
Definition with_plain_logger : World Z :=
  host_sets (Some (OtherLogger 2%nat)) 0 new_world.

(** C10: with a logger that is not a collection and not the cached one, the
    access to [summary_writer] does not return [None]: reading the local name
    [logger] in the [elif] raises [UnboundLocalError]. *)
Lemma summary_writer_plain_logger_raises :
  py_is (_summary_writer_logger (self with_plain_logger))
    (logger (self with_plain_logger)) = false /\
  is_LoggerCollection (logger (self with_plain_logger)) = false /\
  fst (summary_writer with_plain_logger) = Raise (UnboundLocalError "logger") /\
  fst (summary_writer with_plain_logger) <> Return None.
Proof.
  repeat split; discriminate.
Qed.

(** The same with a plain TensorBoard logger. *)
Lemma summary_writer_plain_tensorboard_raises :
  py_is (_summary_writer_logger (self with_tensorboard))
    (logger (self with_tensorboard)) = false /\
  is_LoggerCollection (logger (self with_tensorboard)) = false /\
  fst (summary_writer with_tensorboard) = Raise (UnboundLocalError "logger") /\
  fst (summary_writer with_tensorboard) <> Return None.
Proof.
  repeat split; discriminate.
Qed.

(** ** Further properties on the sample *)

(** [train_step_gen] of the base class. *)
Definition base_train_step_gen (batch : unit) (batch_idx : Z)
    : outcome (nat -> gen_event Z) :=
  Raise NotImplementedError.

(** A generator body that yields 10 and then fails. *)
Definition failing_code (i : nat) : gen_event Z :=
  match i with
  | O => Yield 10
  | _ => GenRaise (UserError 1)
  end.

Definition failing_train_step_gen (batch : unit) (batch_idx : Z)
    : outcome (nat -> gen_event Z) :=
  Return failing_code.

(** The host has attached a collection of two loggers, the second one a
    TensorBoard logger. *)
Definition with_collection : World Z :=
  host_sets
    (Some (LoggerCollection 3%nat [OtherLogger 4%nat; TensorBoardLogger 5%nat 9%nat]))
    0 new_world.

Lemma training_step_propagates_train_step_gen_error_witness :
  training_step base_train_step_gen 2 tt 0 0 new_world =
  (Raise NotImplementedError, new_world).
Proof.
  apply (training_step_propagates_train_step_gen_error unit Z
           base_train_step_gen 2 tt 0 0 new_world NotImplementedError);
    reflexivity.
Defined.

Lemma training_step_after_generator_failure_witness :
  training_step (sample_train_step_gen 0) 2 tt 0 0 new_world =
    (Raise StopIteration,
     set_gen Z (Some (mkGenerator (sample_code 0) 0 true)) new_world) /\
  forall (b' : unit) (bi' k' : Z),
    training_step (sample_train_step_gen 0) 2 b' bi' k'
      (set_gen Z (Some (mkGenerator (sample_code 0) 0 true)) new_world) =
    (Raise StopIteration,
     set_gen Z (Some (mkGenerator (sample_code 0) 0 true)) new_world).
Proof.
  apply (training_step_after_generator_failure unit Z
           (sample_train_step_gen 0) 2 tt 0 0 new_world
           (new_generator Z (sample_code 0)) StopIteration).
  - right. split; [reflexivity |]. exists (sample_code 0). split; reflexivity.
  - reflexivity.
Defined.

Lemma training_step_check_propagates_generator_error_witness :
  training_step failing_train_step_gen 1 tt 0 0 new_world =
  (Raise (UserError 1),
   set_gen Z (Some (mkGenerator failing_code 1 true)) new_world).
Proof.
  apply (training_step_check_propagates_generator_error unit Z
           failing_train_step_gen 1 tt 0 new_world failing_code 0 10
           (UserError 1)).
  - right. split; [reflexivity |]. exists failing_code. split; reflexivity.
  - reflexivity.
  - reflexivity.
  - reflexivity.
  - reflexivity.
Defined.

Lemma optimizer_loop_full_batch_witness :
  optimizer_loop (sample_train_step_gen 2) 2 tt 0 2 0 new_world =
  (Return [10; 20],
   add_event Z IncreaseGlobalStep
     (set_gen Z None (set_verified Z true new_world))).
Proof.
  apply (optimizer_loop_full_batch unit Z (sample_train_step_gen 2) 2 tt 0
           new_world (sample_code 2) sample_value).
  - reflexivity.
  - reflexivity.
  - lia.
  - intros i Hi. destruct i as [| [| i]]; [reflexivity | reflexivity | lia].
  - right. reflexivity.
Defined.

Lemma summary_writer_collection_witness :
  fst (summary_writer with_collection) = Return (Some 9%nat).
Proof.
  rewrite (proj1 (summary_writer_collection Z with_collection 3%nat
                    [OtherLogger 4%nat; TensorBoardLogger 5%nat 9%nat] eq_refl eq_refl)).
  reflexivity.
Defined.

Lemma new_module_stops_after_num_epochs_witness :
  should_stop
    (trainer
       (snd (training_epoch_end
               (at_epoch Z 2
                  (snd (on_pretrain_routine_end (mkCallback 3) new_world)))))) =
    true /\
  should_stop
    (trainer
       (snd (training_epoch_end
               (at_epoch Z 1
                  (snd (on_pretrain_routine_end (mkCallback 3) new_world)))))) =
    false.
Proof.
  split.
  - refine (proj2 (new_module_stops_after_num_epochs Z (mkTrainer false) 0
                     (mkCallback 3) 2 _)).
    unfold in_int32, int32_min, int32_max. simpl. lia.
  - refine (proj2 (new_module_stops_after_num_epochs Z (mkTrainer false) 0
                     (mkCallback 3) 1 _)).
    unfold in_int32, int32_min, int32_max. simpl. lia.
Defined.

Lemma stopping_epoch_stays_int32_witness :
  exists e,
    _next_stopping_epoch
      (self (snd (increase_next_stopping_epochs 2 near_overflow))) = [e] /\
    in_int32 e.
Proof.
  apply (stopping_epoch_stays_int32 unit Z (sample_train_step_gen 2) 2
           (snd (increase_next_stopping_epochs 2 near_overflow))).
  apply (reach_call unit Z (sample_train_step_gen 2) 2
           (Call_increase_next_stopping_epochs unit 2)).
  apply (reach_call unit Z (sample_train_step_gen 2) 2
           (Call_increase_next_stopping_epochs unit 2147483647)).
  apply reach_init.
Defined.

Lemma set_reporter_then_epoch_end_flushes_witness :
  trace (snd (training_epoch_end (snd (set_reporter (Some (UserReporter 8)) new_world)))) =
    [Flush (UserReporter 8) 0] /\
  trace (snd (training_epoch_end (snd (set_reporter None new_world)))) =
    [Flush (DummyExperiment 1) 0].
Proof.
  split.
  - apply (set_reporter_then_epoch_end_flushes Z (Some (UserReporter 8))
             new_world (-1)); reflexivity.
  - apply (set_reporter_then_epoch_end_flushes Z None new_world (-1));
      reflexivity.
Defined.

Lemma increase_next_stopping_epochs_compose_witness :
  increase_next_stopping_epochs 3 (snd (increase_next_stopping_epochs 2 new_world)) =
  increase_next_stopping_epochs 5 new_world.
Proof.
  apply (increase_next_stopping_epochs_compose Z 2 3 new_world);
    unfold in_int64, int64_min, int64_max; lia.
Defined.
